(** * Smart Study Tool: the request router of [main.py]

    A shallow embedding of the route handlers of [src/main.py] and the
    properties the specification states about them.

    The handlers are glue: they test which inputs are present, call
    external collaborators ([functions], [youtubefunctions], [yt_dlp]),
    and turn failures into [HTTPException]s.  The collaborators are not
    part of the file, so they are a record of functions the development
    is parametric in; each call is recorded in a trace, which is what
    "is (never) invoked" and "no retry" speak about. *)

From Stdlib Require Import String List ZArith Bool Lia DecimalString.
Import ListNotations.
Local Open Scope string_scope.
Local Open Scope Z_scope.

(** ** Python values *)

(** Exceptions, as far as the handlers tell them apart: [except
    HTTPException] against [except Exception].  The carrier is the
    instances of Python's [Exception] class, which is what a failing
    collaborator raises; [OtherException] carries [str(e)]. *)
Inductive exn : Type :=
| HTTPException (status_code : Z) (detail : string)
| OtherException (message : string).

(** What a call does: it returns a value or raises. *)
Inductive outcome (A : Type) : Type :=
| Returns (a : A)
| Raises (e : exn).
Arguments Returns {A} a.
Arguments Raises {A} e.

(** [UploadFile]: a declared name and content type, and the bytes. *)
Record UploadFile : Type := {
  filename : string;
  content_type : string;
  file_bytes : string
}.

(** Truthiness of an optional string ([if text:], [if not video_id:],
    [if transcript:]): [None] and the empty string are false.  The result
    is the string itself when it is true. *)
Definition truthy (v : option string) : option string :=
  match v with
  | Some EmptyString => None
  | Some s => Some s
  | None => None
  end.

(** A value a dict of [yt_dlp] stores under a key: [None], a string, an
    integer, or some other object. *)
Inductive pyval : Type :=
| PyNone
| PyStr (s : string)
| PyInt (z : Z)
| PyObject (repr : string).

(** The dict [yt_dlp] returns, as its items. *)
Definition Info : Type := list (string * pyval).

(** [info.get(key, default)]: the value stored under [key], a stored
    [None] included; [default] only when the key is absent. *)
Fixpoint get (info : Info) (key : string) (default : pyval) : pyval :=
  match info with
  | [] => default
  | (k, v) :: rest => if String.eqb k key then v else get rest key default
  end.

(** ** Request and response models *)

Record VideoRequest : Type := { url : string }.

Record VideoSummaryResponse : Type := {
  video_id : string;
  title : string;
  thumbnail : string;
  summary : string;
  source : string;
  duration : option string
}.

(** The dict [get_video_info] returns. *)
Record VideoInfo : Type := {
  vi_video_id : string;
  vi_title : pyval;
  vi_thumbnail : pyval;
  vi_duration : pyval;
  vi_channel : pyval;
  vi_view_count : pyval
}.

(** ** Collaborator calls and their trace *)

(** The six generate-X endpoints. *)
Inductive endpoint : Type :=
| Flashcards | MCQs | MindMap | LearningPath | StickyNotes | ExamQuestions.

(** One entry per call of a collaborator, with its argument. *)
Inductive event : Type :=
| Called_process_uploaded_file (file : UploadFile)
| Called_generation (X : endpoint) (content : string)
| Called_get_video_id (video_url : string)
| Called_extract_info (video_url : string)
| Called_get_transcript (video_id : string)
| Called_summarize_transcript (transcript : string)
| Called_download_audio (video_url : string)
| Called_transcribe_audio (audio_path : string)
| Called_generate_summary (transcript_text : string).

Definition trace := list event.

(** ** The handler monad: a trace of calls, and exceptions *)

Definition M (A : Type) : Type := trace -> outcome A * trace.

Definition ret {A : Type} (a : A) : M A := fun tr => (Returns a, tr).

Definition raise {A : Type} (e : exn) : M A := fun tr => (Raises e, tr).

Definition bind {A B : Type} (c : M A) (k : A -> M B) : M B :=
  fun tr =>
    match c tr with
    | (Returns a, tr') => k a tr'
    | (Raises e, tr') => (Raises e, tr')
    end.

(** [try: body except ... as e: handler]; the calls the body made before
    it raised stay in the trace. *)
Definition try_except {A : Type} (body : M A) (handler : exn -> M A) : M A :=
  fun tr =>
    match body tr with
    | (Returns a, tr') => (Returns a, tr')
    | (Raises e, tr') => handler e tr'
    end.

(** Calling a collaborator: the call is recorded, its outcome is the
    collaborator's. *)
Definition call {A : Type} (ev : event) (result : outcome A) : M A :=
  fun tr => (result, (tr ++ [ev])%list).

(** A call that is not one of the collaborators: its outcome, no entry in
    the trace. *)
Definition lift {A : Type} (result : outcome A) : M A :=
  fun tr => (result, tr).

Declare Scope handler_scope.
Delimit Scope handler_scope with handler.
Notation "x <- c ;; k" := (bind c (fun x => k))
  (at level 100, c at next level, right associativity) : handler_scope.
Notation "' pat <- c ;; k" := (bind c (fun x => match x with pat => k end))
  (at level 100, pat pattern, c at next level, right associativity) : handler_scope.
Local Open Scope handler_scope.

(** A handler run on a fresh request. *)
Definition run {A : Type} (h : M A) : outcome A * trace := h [].

(** The status of the HTTP response FastAPI builds from a handler's
    outcome: 200 for a returned value, the exception's own status for an
    [HTTPException], 500 for anything else that escapes. *)
Definition http_status {A : Type} (o : outcome A) : Z :=
  match o with
  | Returns _ => 200
  | Raises (HTTPException status_code _) => status_code
  | Raises (OtherException _) => 500
  end.

Definition is_client_error (status : Z) : Prop := 400 <= status < 500.
Definition is_server_error (status : Z) : Prop := 500 <= status < 600.

(** ** The collaborators *)

(** What [main.py] imports and calls.  [artifact] is whatever a
    generation function returns (a list of flashcards, a mind map, ...):
    the handlers never look inside it.  [extract_info] stands for
    [yt_dlp.YoutubeDL(ydl_opts).extract_info(video_url, download=False)],
    import included; it may return [None].  [str_HTTPException] is
    [str(e)] for an [HTTPException], which Starlette defines.  The last
    two are pydantic's: [coerce_str] is what a [str] field makes of a
    value that is neither a string nor [None] (accepted as some string,
    or refused, by the installed version), [str_ValidationError] is
    [str(e)] of the error [VideoSummaryResponse] raises for the title,
    thumbnail and duration it was given. *)
Record Collaborators (artifact : Type) : Type := {
  process_uploaded_file : UploadFile -> outcome string;
  generate_flashcards : string -> outcome artifact;
  generate_mcqs : string -> outcome artifact;
  create_mind_map : string -> outcome artifact;
  generate_learning_path : string -> outcome artifact;
  create_sticky_notes : string -> outcome artifact;
  generate_exam_questions : string -> outcome artifact;
  get_video_id : string -> outcome (option string);
  extract_info : string -> outcome (option Info);
  get_transcript : string -> outcome (option string);
  summarize_transcript : string -> outcome string;
  download_audio : string -> outcome string;
  transcribe_audio : string -> outcome string;
  generate_summary : string -> outcome string;
  str_HTTPException : Z -> string -> string;
  coerce_str : pyval -> option string;
  str_ValidationError : pyval -> pyval -> pyval -> string
}.
Arguments process_uploaded_file {artifact} _ _.
Arguments generate_flashcards {artifact} _ _.
Arguments generate_mcqs {artifact} _ _.
Arguments create_mind_map {artifact} _ _.
Arguments generate_learning_path {artifact} _ _.
Arguments create_sticky_notes {artifact} _ _.
Arguments generate_exam_questions {artifact} _ _.
Arguments get_video_id {artifact} _ _.
Arguments extract_info {artifact} _ _.
Arguments get_transcript {artifact} _ _.
Arguments summarize_transcript {artifact} _ _.
Arguments download_audio {artifact} _ _.
Arguments transcribe_audio {artifact} _ _.
Arguments generate_summary {artifact} _ _.
Arguments str_HTTPException {artifact} _ _ _.
Arguments coerce_str {artifact} _ _.
Arguments str_ValidationError {artifact} _ _ _ _.

(** The same collaborators with another metadata source. *)
Definition with_extract_info {artifact : Type} (W : Collaborators artifact)
    (f : string -> outcome (option Info)) : Collaborators artifact :=
  {| process_uploaded_file := process_uploaded_file W;
     generate_flashcards := generate_flashcards W;
     generate_mcqs := generate_mcqs W;
     create_mind_map := create_mind_map W;
     generate_learning_path := generate_learning_path W;
     create_sticky_notes := create_sticky_notes W;
     generate_exam_questions := generate_exam_questions W;
     get_video_id := get_video_id W;
     extract_info := f;
     get_transcript := get_transcript W;
     summarize_transcript := summarize_transcript W;
     download_audio := download_audio W;
     transcribe_audio := transcribe_audio W;
     generate_summary := generate_summary W;
     str_HTTPException := str_HTTPException W;
     coerce_str := coerce_str W;
     str_ValidationError := str_ValidationError W |}.

(** ** The handlers *)

Section Handlers.

Context {artifact : Type}.
Variable W : Collaborators artifact.

(** [str(e)]. *)
Definition str (e : exn) : string :=
  match e with
  | HTTPException status_code detail => str_HTTPException W status_code detail
  | OtherException message => message
  end.

(** *** Smart revision, mind map, learning path, sticky notes, exam booster *)

(** [create_flashcards], lines 143-157. *)
Definition create_flashcards (file : option UploadFile) (text : option string)
  : M artifact :=
  try_except
    (content <-
       match file with
       | Some f =>
           call (Called_process_uploaded_file f) (process_uploaded_file W f)
       | None =>
           match truthy text with
           | Some t => ret t
           | None =>
               raise (HTTPException 400 "Please provide either a file or text")
           end
       end ;;
     flashcards <-
       call (Called_generation Flashcards content) (generate_flashcards W content) ;;
     ret flashcards)
    (fun e =>
       raise (HTTPException 500 ("Error generating flashcards: " ++ str e))).

(** [create_mcqs], lines 159-173. *)
Definition create_mcqs (file : option UploadFile) (text : option string)
  : M artifact :=
  try_except
    (content <-
       match file with
       | Some f =>
           call (Called_process_uploaded_file f) (process_uploaded_file W f)
       | None =>
           match truthy text with
           | Some t => ret t
           | None =>
               raise (HTTPException 400 "Please provide either a file or text")
           end
       end ;;
     mcqs <- call (Called_generation MCQs content) (generate_mcqs W content) ;;
     ret mcqs)
    (fun e => raise (HTTPException 500 ("Error generating MCQs: " ++ str e))).

(** [create_mindmap], lines 181-195. *)
Definition create_mindmap (file : option UploadFile) (text : option string)
  : M artifact :=
  try_except
    (content <-
       match file with
       | Some f =>
           call (Called_process_uploaded_file f) (process_uploaded_file W f)
       | None =>
           match truthy text with
           | Some t => ret t
           | None =>
               raise (HTTPException 400 "Please provide either a file or text")
           end
       end ;;
     mindmap_data <-
       call (Called_generation MindMap content) (create_mind_map W content) ;;
     ret mindmap_data)
    (fun e => raise (HTTPException 500 ("Error generating mind map: " ++ str e))).

(** [create_learning_path], lines 203-217. *)
Definition create_learning_path (file : option UploadFile) (text : option string)
  : M artifact :=
  try_except
    (content <-
       match file with
       | Some f =>
           call (Called_process_uploaded_file f) (process_uploaded_file W f)
       | None =>
           match truthy text with
           | Some t => ret t
           | None =>
               raise (HTTPException 400 "Please provide either a file or text")
           end
       end ;;
     learning_path <-
       call (Called_generation LearningPath content)
            (generate_learning_path W content) ;;
     ret learning_path)
    (fun e =>
       raise (HTTPException 500 ("Error generating learning path: " ++ str e))).

(** [create_smart_sticky_notes], lines 225-239. *)
Definition create_smart_sticky_notes (file : option UploadFile)
    (text : option string) : M artifact :=
  try_except
    (content <-
       match file with
       | Some f =>
           call (Called_process_uploaded_file f) (process_uploaded_file W f)
       | None =>
           match truthy text with
           | Some t => ret t
           | None =>
               raise (HTTPException 400 "Please provide either a file or text")
           end
       end ;;
     sticky_notes <-
       call (Called_generation StickyNotes content) (create_sticky_notes W content) ;;
     ret sticky_notes)
    (fun e =>
       raise (HTTPException 500 ("Error generating sticky notes: " ++ str e))).

(** [create_exam_questions], lines 252-266. *)
Definition create_exam_questions (file : option UploadFile)
    (text : option string) : M artifact :=
  try_except
    (content <-
       match file with
       | Some f =>
           call (Called_process_uploaded_file f) (process_uploaded_file W f)
       | None =>
           match truthy text with
           | Some t => ret t
           | None =>
               raise (HTTPException 400 "Please provide either a file or text")
           end
       end ;;
     exam_questions <-
       call (Called_generation ExamQuestions content)
            (generate_exam_questions W content) ;;
     ret exam_questions)
    (fun e =>
       raise (HTTPException 500 ("Error generating exam questions: " ++ str e))).

(** The route table of the six endpoints, to state a property once for
    all of them. *)
Definition handler (X : endpoint)
  : option UploadFile -> option string -> M artifact :=
  match X with
  | Flashcards => create_flashcards
  | MCQs => create_mcqs
  | MindMap => create_mindmap
  | LearningPath => create_learning_path
  | StickyNotes => create_smart_sticky_notes
  | ExamQuestions => create_exam_questions
  end.

(** The generation collaborator an endpoint calls. *)
Definition generation (X : endpoint) : string -> outcome artifact :=
  match X with
  | Flashcards => generate_flashcards W
  | MCQs => generate_mcqs W
  | MindMap => create_mind_map W
  | LearningPath => generate_learning_path W
  | StickyNotes => create_sticky_notes W
  | ExamQuestions => generate_exam_questions W
  end.

(** The "Error <doing X>: " each endpoint puts before [str(e)]. *)
Definition error_prefix (X : endpoint) : string :=
  match X with
  | Flashcards => "Error generating flashcards: "
  | MCQs => "Error generating MCQs: "
  | MindMap => "Error generating mind map: "
  | LearningPath => "Error generating learning path: "
  | StickyNotes => "Error generating sticky notes: "
  | ExamQuestions => "Error generating exam questions: "
  end.

(** The exception of the missing-input branch. *)
Definition missing_input : exn :=
  HTTPException 400 "Please provide either a file or text".

End Handlers.

(** *** YouTube video summarizer and the utility routes *)

Section VideoHandlers.

Context {artifact : Type}.
Variable W : Collaborators artifact.

(** The thumbnail URL built from the video id
    ([f'https://img.youtube.com/vi/{video_id}/maxresdefault.jpg']). *)
Definition default_thumbnail (video_id : string) : string :=
  "https://img.youtube.com/vi/" ++ video_id ++ "/maxresdefault.jpg".

(** What [info.get] raises when [info] is [None]. *)
Definition none_has_no_get : exn :=
  OtherException "'NoneType' object has no attribute 'get'".

(** What pydantic makes of a value given for a [str] field: a string is
    taken as it is, [None] is refused, anything else is for the installed
    version to say. *)
Definition str_field (v : pyval) : option string :=
  match v with
  | PyStr s => Some s
  | PyNone => None
  | PyInt _ | PyObject _ => coerce_str W v
  end.

(** The same for an [Optional[str]] field, which takes [None] as well. *)
Definition optional_str_field (v : pyval) : option (option string) :=
  match v with
  | PyNone => Some None
  | PyStr s => Some (Some s)
  | PyInt _ | PyObject _ =>
      match coerce_str W v with
      | Some s => Some (Some s)
      | None => None
      end
  end.

(** [VideoSummaryResponse(video_id=..., title=..., ...)], the model of
    lines 102-108 built at lines 318-325: [title] and [thumbnail] are
    [str] fields and [duration] is [Optional[str]]; a value a field
    refuses makes the constructor raise a [ValidationError].  The video
    id, the summary and the source are strings already. *)
Definition new_VideoSummaryResponse (video_id : string) (title thumbnail : pyval)
    (summary source : string) (duration : pyval)
  : outcome VideoSummaryResponse :=
  match str_field title, str_field thumbnail, optional_str_field duration with
  | Some title, Some thumbnail, Some duration =>
      Returns {| video_id := video_id;
                 title := title;
                 thumbnail := thumbnail;
                 summary := summary;
                 source := source;
                 duration := duration |}
  | _, _, _ =>
      Raises (OtherException (str_ValidationError W title thumbnail duration))
  end.

(** [summarize_youtube_video], lines 279-330.  The inner [try] of lines
    290-301 has a bare [except:], the one of lines 310-316 an
    [except Exception as e]; the outer one lets an [HTTPException]
    through and wraps the rest. *)
Definition summarize_youtube_video (request : VideoRequest)
  : M VideoSummaryResponse :=
  try_except
    (let video_url := url request in
     video_id <- call (Called_get_video_id video_url) (get_video_id W video_url) ;;
     match truthy video_id with
     | None => raise (HTTPException 400 "Invalid YouTube URL")
     | Some video_id =>
         '(title, thumbnail, duration) <-
           try_except
             (info <- call (Called_extract_info video_url)
                           (extract_info W video_url) ;;
              match info with
              | Some info =>
                  ret (get info "title" (PyStr "YouTube Video"),
                       get info "thumbnail" (PyStr (default_thumbnail video_id)),
                       get info "duration_string" (PyStr "Unknown"))
              | None => raise none_has_no_get
              end)
             (fun _ =>
                ret (PyStr "YouTube Video",
                     PyStr (default_thumbnail video_id),
                     PyStr "Unknown")) ;;
         transcript <-
           call (Called_get_transcript video_id) (get_transcript W video_id) ;;
         '(summary, source) <-
           match truthy transcript with
           | Some transcript =>
               summary <- call (Called_summarize_transcript transcript)
                               (summarize_transcript W transcript) ;;
               ret (summary, "transcript")
           | None =>
               try_except
                 (audio_path <- call (Called_download_audio video_url)
                                     (download_audio W video_url) ;;
                  transcript_text <- call (Called_transcribe_audio audio_path)
                                          (transcribe_audio W audio_path) ;;
                  summary <- call (Called_generate_summary transcript_text)
                                  (generate_summary W transcript_text) ;;
                  ret (summary, "audio"))
                 (fun e =>
                    raise (HTTPException 500
                             ("Audio processing failed: " ++ str W e)))
           end ;;
         lift (new_VideoSummaryResponse video_id title thumbnail summary source
                                        duration)
     end)
    (fun e =>
       match e with
       | HTTPException _ _ => raise e
       | OtherException _ =>
           raise (HTTPException 500 ("Error processing video: " ++ str W e))
       end).

(** [get_video_info], lines 332-352. *)
Definition get_video_info (video_id : string) : M VideoInfo :=
  try_except
    (let video_url := "https://www.youtube.com/watch?v=" ++ video_id in
     info <- call (Called_extract_info video_url) (extract_info W video_url) ;;
     match info with
     | Some info =>
         ret {| vi_video_id := video_id;
                vi_title := get info "title" (PyStr "YouTube Video");
                vi_thumbnail :=
                  get info "thumbnail" (PyStr (default_thumbnail video_id));
                vi_duration := get info "duration_string" (PyStr "Unknown");
                vi_channel := get info "uploader" (PyStr "Unknown Channel");
                vi_view_count := get info "view_count" (PyInt 0) |}
     | None => raise none_has_no_get
     end)
    (fun e =>
       raise (HTTPException 500 ("Error fetching video info: " ++ str W e))).

End VideoHandlers.

(** [health_check], lines 399-402: a dict literal. *)
Definition health_check : M (list (string * string)) :=
  ret [("status", "healthy"); ("version", "1.0.0")].

(** ** Ways a request can go, as the claims name them *)

Section Scenarios.

Context {artifact : Type}.
Variable W : Collaborators artifact.

(** The extraction or the generation collaborator of endpoint [X]
    raises [e] while the request [(file, text)] is served. *)
Inductive collaborator_raises (X : endpoint)
  : option UploadFile -> option string -> exn -> Prop :=
| extraction_raises f text e :
    process_uploaded_file W f = Raises e ->
    collaborator_raises X (Some f) text e
| generation_raises_on_file f text content e :
    process_uploaded_file W f = Returns content ->
    generation W X content = Raises e ->
    collaborator_raises X (Some f) text e
| generation_raises_on_text text content e :
    truthy text = Some content ->
    generation W X content = Raises e ->
    collaborator_raises X None text e.

(** The audio fallback for [video_url] fails with [e]: the download,
    the transcription or the summarization raises. *)
Inductive audio_fallback_raises (video_url : string) : exn -> Prop :=
| download_raises e :
    download_audio W video_url = Raises e ->
    audio_fallback_raises video_url e
| transcription_raises audio_path e :
    download_audio W video_url = Returns audio_path ->
    transcribe_audio W audio_path = Raises e ->
    audio_fallback_raises video_url e
| summarization_raises audio_path transcript_text e :
    download_audio W video_url = Returns audio_path ->
    transcribe_audio W audio_path = Returns transcript_text ->
    generate_summary W transcript_text = Raises e ->
    audio_fallback_raises video_url e.


End Scenarios.

(** How often the extraction and the generation collaborator were called. *)
Definition is_extraction (ev : event) : bool :=
  match ev with Called_process_uploaded_file _ => true | _ => false end.

Definition is_generation (ev : event) : bool :=
  match ev with Called_generation _ _ => true | _ => false end.

Definition calls (p : event -> bool) (tr : trace) : nat :=
  length (filter p tr).


(** The metadata source fails for [video_url]: it raises, or returns
    [None], on which [info.get] raises. *)
Definition metadata_fails (f : string -> outcome (option Info))
    (video_url : string) : Prop :=
  match f video_url with
  | Returns (Some _) => False
  | Returns None => True
  | Raises _ => True
  end.


(** ** Scripted collaborators, to run the handlers on concrete requests *)

(** Starlette's [HTTPException.__str__]: [f"{status_code}: {detail}"]. *)
Definition starlette_str (status_code : Z) (detail : string) : string :=
  DecimalString.NilZero.string_of_int (Z.to_int status_code) ++ ": " ++ detail.

Definition unused {A : Type} : outcome A := Raises (OtherException "not scripted").

(** The first line of pydantic's message; the scripted collaborators use
    it for every validation error, and refuse what is not a string. *)
Definition validation_error_text : string :=
  "1 validation error for VideoSummaryResponse".

(** Collaborators of the study endpoints that answer every call with the
    given outcomes. *)
Definition scripted_study (extraction : outcome string)
    (generated : outcome (list string)) : Collaborators (list string) :=
  {| process_uploaded_file := fun _ => extraction;
     generate_flashcards := fun _ => generated;
     generate_mcqs := fun _ => generated;
     create_mind_map := fun _ => generated;
     generate_learning_path := fun _ => generated;
     create_sticky_notes := fun _ => generated;
     generate_exam_questions := fun _ => generated;
     get_video_id := fun _ => unused;
     extract_info := fun _ => unused;
     get_transcript := fun _ => unused;
     summarize_transcript := fun _ => unused;
     download_audio := fun _ => unused;
     transcribe_audio := fun _ => unused;
     generate_summary := fun _ => unused;
     str_HTTPException := starlette_str;
     coerce_str := fun _ => None;
     str_ValidationError := fun _ _ _ => validation_error_text |}.

(** Collaborators of the video pipeline that answer every call with the
    given outcomes; a summary quotes the text it was given. *)
Definition scripted_video (id : outcome (option string))
    (info : outcome (option Info)) (transcript : outcome (option string))
    (audio : outcome string) (transcription : outcome string)
    : Collaborators (list string) :=
  {| process_uploaded_file := fun _ => unused;
     generate_flashcards := fun _ => unused;
     generate_mcqs := fun _ => unused;
     create_mind_map := fun _ => unused;
     generate_learning_path := fun _ => unused;
     create_sticky_notes := fun _ => unused;
     generate_exam_questions := fun _ => unused;
     get_video_id := fun _ => id;
     extract_info := fun _ => info;
     get_transcript := fun _ => transcript;
     summarize_transcript := fun t => Returns ("Summary: " ++ t);
     download_audio := fun _ => audio;
     transcribe_audio := fun _ => transcription;
     generate_summary := fun t => Returns ("Summary: " ++ t);
     str_HTTPException := starlette_str;
     coerce_str := fun _ => None;
     str_ValidationError := fun _ _ _ => validation_error_text |}.

Definition notes_txt : UploadFile :=
  {| filename := "notes.txt"; content_type := "text/plain";
     file_bytes := "Cells divide." |}.

Definition lecture_info : Info :=
  [ ("title", PyStr "Lecture 1");
    ("duration_string", PyStr "12:34");
    ("uploader", PyStr "Prof");
    ("view_count", PyInt 42) ].

Definition watch_request : VideoRequest :=
  {| url := "https://www.youtube.com/watch?v=abc123" |}.

(** A PDF the extraction collaborator rejects. *)
Definition W_corrupt_upload : Collaborators (list string) :=
  scripted_study (Raises (OtherException "corrupt PDF")) unused.

(** Extraction and generation both work. *)
Definition W_study : Collaborators (list string) :=
  scripted_study (Returns "Cells divide by mitosis.")
                 (Returns ["What do cells do?"; "They divide."]).

(** A video with metadata and a transcript. *)
Definition W_transcript : Collaborators (list string) :=
  scripted_video (Returns (Some "abc123")) (Returns (Some lecture_info))
                 (Returns (Some "hello world")) unused unused.

(** A video without a transcript whose audio can be transcribed. *)
Definition W_audio : Collaborators (list string) :=
  scripted_video (Returns (Some "abc123")) (Returns (Some lecture_info))
                 (Returns None) (Returns "/tmp/abc123.mp3")
                 (Returns "spoken words").

(** A video without a transcript whose audio cannot be downloaded. *)
Definition W_no_audio : Collaborators (list string) :=
  scripted_video (Returns (Some "abc123")) (Returns (Some lecture_info))
                 (Returns None) (Raises (OtherException "ffmpeg not found"))
                 unused.

(** A URL no identifier can be read from. *)
Definition W_no_id : Collaborators (list string) :=
  scripted_video (Returns None) unused unused unused unused.

(** Metadata whose title is there and is [None]. *)
Definition untitled_info : Info :=
  [ ("title", PyNone);
    ("thumbnail", PyStr "https://i.ytimg.com/vi/abc123/hq720.jpg");
    ("duration_string", PyStr "12:34");
    ("uploader", PyNone) ].

(** The video with a transcript, its metadata storing [None] as title. *)
Definition W_untitled : Collaborators (list string) :=
  scripted_video (Returns (Some "abc123")) (Returns (Some untitled_info))
                 (Returns (Some "hello world")) unused unused.


(** ** The landing page *)

Definition double_quote : string :=
  String (Ascii.Ascii false true false false false true false false) EmptyString.

Definition newline : string :=
  String (Ascii.Ascii false true false true false false false false) EmptyString.

(** [get_inline_html], lines 128-140: the triple-quoted literal, line by
    line, with the indentation it has in the source. *)
Definition get_inline_html : string :=
  String.concat newline
    [ "";
      "    <!DOCTYPE html>";
      "    <html>";
      "    <head><title>Smart Study Tool</title></head>";
      "    <body>";
      "        <h1>Smart Study Tool API</h1>";
      "        <p>API is running! Visit <a href=" ++ double_quote ++ "/docs"
        ++ double_quote ++ ">/docs</a> for API documentation.</p>";
      "        <p>Upload your files using the API endpoints to generate study materials.</p>";
      "    </body>";
      "    </html>";
      "    " ].

(** What [get_homepage] asks of the file system: [os.path.exists], which
    answers with a boolean, and opening and reading a text file, which may
    raise. *)
Record FileSystem : Type := {
  path_exists : string -> bool;
  read_text : string -> outcome string
}.

(** [HTMLResponse(content=...)]. *)
Record HTMLResponse : Type := { html_content : string }.

(** [get_homepage], lines 115-126. *)
Definition get_homepage (fs : FileSystem) : M HTMLResponse :=
  try_except
    (if path_exists fs "templates/index.html" then
       text <- lift (read_text fs "templates/index.html") ;;
       ret {| html_content := text |}
     else
       ret {| html_content := get_inline_html |})
    (fun _ => ret {| html_content := get_inline_html |}).

(** ** More ways a request can go *)

(** The content a generate-X request carries: what the extraction
    collaborator returns for the file, or else the text when it is true. *)
Inductive request_content {artifact : Type} (W : Collaborators artifact)
  : option UploadFile -> option string -> string -> Prop :=
| content_of_file f text extracted :
    process_uploaded_file W f = Returns extracted ->
    request_content W (Some f) text extracted
| content_of_text text t :
    truthy text = Some t ->
    request_content W None text t.

(** A stage of [summarize_youtube_video] outside the two inner [try]
    blocks raises [e]: resolving the id, fetching the transcript, or
    summarizing the transcript. *)
Inductive pipeline_raises {artifact : Type} (W : Collaborators artifact)
    (video_url : string) : exn -> Prop :=
| id_raises e :
    get_video_id W video_url = Raises e ->
    pipeline_raises W video_url e
| transcript_raises v id e :
    get_video_id W video_url = Returns v -> truthy v = Some id ->
    get_transcript W id = Raises e ->
    pipeline_raises W video_url e
| transcript_summary_raises v id tv t e :
    get_video_id W video_url = Returns v -> truthy v = Some id ->
    get_transcript W id = Returns tv -> truthy tv = Some t ->
    summarize_transcript W t = Raises e ->
    pipeline_raises W video_url e.

(** The collaborator an entry of the trace is a call of. *)
Inductive collaborator : Type :=
| Extraction | Generation | VideoId | Metadata | Transcript
| TranscriptSummary | AudioDownload | Transcription | AudioSummary.

Definition collaborator_of (ev : event) : collaborator :=
  match ev with
  | Called_process_uploaded_file _ => Extraction
  | Called_generation _ _ => Generation
  | Called_get_video_id _ => VideoId
  | Called_extract_info _ => Metadata
  | Called_get_transcript _ => Transcript
  | Called_summarize_transcript _ => TranscriptSummary
  | Called_download_audio _ => AudioDownload
  | Called_transcribe_audio _ => Transcription
  | Called_generate_summary _ => AudioSummary
  end.

Definition collaborator_eqb (a b : collaborator) : bool :=
  match a, b with
  | Extraction, Extraction | Generation, Generation | VideoId, VideoId
  | Metadata, Metadata | Transcript, Transcript
  | TranscriptSummary, TranscriptSummary | AudioDownload, AudioDownload
  | Transcription, Transcription | AudioSummary, AudioSummary => true
  | _, _ => false
  end.

(** How often collaborator [c] was called. *)
Definition calls_to (c : collaborator) (tr : trace) : nat :=
  calls (fun ev => collaborator_eqb (collaborator_of ev) c) tr.

(** ** More scripted collaborators *)

(** An upload the extraction collaborator finds no text in. *)
Definition W_empty_upload : Collaborators (list string) :=
  scripted_study (Returns "") (Returns ["Nothing to revise."]).

(** A video whose transcript lookup breaks. *)
Definition W_transcript_error : Collaborators (list string) :=
  scripted_video (Returns (Some "abc123")) (Returns (Some lecture_info))
                 (Raises (OtherException "transcripts disabled")) unused unused.

(** A video whose transcript lookup is refused with a status of its own. *)
Definition W_transcript_refused : Collaborators (list string) :=
  scripted_video (Returns (Some "abc123")) (Returns (Some lecture_info))
                 (Raises (HTTPException 429 "Too many requests")) unused unused.

(** A file system where the template is there and cannot be read. *)
Definition fs_unreadable : FileSystem :=
  {| path_exists := fun _ => true;
     read_text := fun _ => Raises (OtherException "Permission denied") |}.

(** * Properties *)

(** Unfolds a handler down to the matches on its collaborators' outcomes. *)
Ltac exec :=
  unfold run, handler, create_flashcards, create_mcqs, create_mindmap,
    create_learning_path, create_smart_sticky_notes, create_exam_questions,
    summarize_youtube_video, get_video_info, health_check,
    try_except, bind, call, lift, ret, raise, missing_input;
  cbn [fst snd app generation error_prefix].

(** ** The generate-X endpoints *)

Section GenerateEndpoints.

Context {artifact : Type}.
Variable W : Collaborators artifact.

(** Each of the six handlers is the same program, up to its generation
    collaborator and its error prefix. *)
Lemma handler_run (X : endpoint) file text :
  run (handler W X file text) =
  match file with
  | Some f =>
      match process_uploaded_file W f with
      | Returns content =>
          match generation W X content with
          | Returns a =>
              (Returns a,
               [Called_process_uploaded_file f; Called_generation X content])
          | Raises e =>
              (Raises (HTTPException 500 (error_prefix X ++ str W e)),
               [Called_process_uploaded_file f; Called_generation X content])
          end
      | Raises e =>
          (Raises (HTTPException 500 (error_prefix X ++ str W e)),
           [Called_process_uploaded_file f])
      end
  | None =>
      match truthy text with
      | Some content =>
          match generation W X content with
          | Returns a => (Returns a, [Called_generation X content])
          | Raises e =>
              (Raises (HTTPException 500 (error_prefix X ++ str W e)),
               [Called_generation X content])
          end
      | None =>
          (Raises (HTTPException 500 (error_prefix X ++ str W missing_input)), [])
      end
  end.
Proof.
  destruct X; exec;
    (destruct file as [f|];
     [ destruct (process_uploaded_file W f) as [content|e]; cbn;
       [ match goal with
         | |- context [match ?g with Returns _ => _ | Raises _ => _ end] =>
             destruct g
         end; reflexivity
       | reflexivity ]
     | destruct (truthy text) as [content|]; cbn;
       [ match goal with
         | |- context [match ?g with Returns _ => _ | Raises _ => _ end] =>
             destruct g
         end; reflexivity
       | reflexivity ] ]).
Qed.

(** C1, as the code has it: with neither a file nor text, no
    collaborator is invoked, but the [HTTPException] with status 400
    raised for the missing input is caught by the handler's own
    [except Exception] and leaves as status 500, its detail the
    endpoint's error prefix followed by [str] of the caught exception. *)
Theorem missing_input_leaves_as_500 (X : endpoint) :
  run (handler W X None None) =
    (Raises (HTTPException 500 (error_prefix X ++ str W missing_input)), []) /\
  http_status (fst (run (handler W X None None))) = 500 /\
  ~ is_client_error (http_status (fst (run (handler W X None None)))).
Proof.
  rewrite handler_run. cbn. repeat split.
  unfold is_client_error. lia.
Qed.

(** C3: an exception raised by the extraction or by the generation
    collaborator leaves the endpoint as an [HTTPException] of status
    500 whose detail is "Error <doing X>: " followed by [str(e)]; no
    value is returned, and neither collaborator was called twice. *)
Theorem collaborator_exception_becomes_500 (X : endpoint) file text e :
  collaborator_raises W X file text e ->
  fst (run (handler W X file text)) =
    Raises (HTTPException 500 (error_prefix X ++ str W e)) /\
  http_status (fst (run (handler W X file text))) = 500 /\
  (forall a, fst (run (handler W X file text)) <> Returns a) /\
  (calls is_extraction (snd (run (handler W X file text))) <= 1)%nat /\
  (calls is_generation (snd (run (handler W X file text))) <= 1)%nat.
Proof.
  intros H. rewrite handler_run.
  destruct H as [f text e Hx | f text content e Hx Hg | text content e Ht Hg];
    try rewrite Hx; try rewrite Ht; try rewrite Hg; cbn;
    repeat split; try lia; intros a Ha; discriminate Ha.
Qed.

(** C5: with text only, the extraction collaborator is not invoked, the
    one call made is the generation collaborator's, on the text as it
    was supplied, and what that call returns is what the handler
    returns. *)
Theorem text_only_goes_to_generation (X : endpoint) (text : string) :
  text <> "" ->
  snd (run (handler W X None (Some text))) = [Called_generation X text] /\
  calls is_extraction (snd (run (handler W X None (Some text)))) = 0%nat /\
  (forall a, generation W X text = Returns a ->
             fst (run (handler W X None (Some text))) = Returns a).
Proof.
  intros Hne. rewrite handler_run.
  assert (Ht : truthy (Some text) = Some text)
    by (destruct text; [contradiction | reflexivity]).
  rewrite Ht.
  destruct (generation W X text) as [a|e]; cbn; repeat split;
    intros a' Ha'; congruence.
Qed.

(** C8: empty text with no file goes the way of no input at all: the
    missing-input exception is raised and handled, and no collaborator
    is invoked. *)
Theorem empty_text_is_missing_input (X : endpoint) :
  run (handler W X None (Some "")) = run (handler W X None None) /\
  run (handler W X None (Some "")) =
    (Raises (HTTPException 500 (error_prefix X ++ str W missing_input)), []) /\
  calls is_extraction (snd (run (handler W X None (Some "")))) = 0%nat /\
  calls is_generation (snd (run (handler W X None (Some "")))) = 0%nat.
Proof.
  rewrite !handler_run. cbn. repeat split.
Qed.

(** C9: with a file, the text field plays no part: the handler runs the
    same whatever the text, the extraction collaborator is called on
    the file, and the generation collaborator on what it returned. *)
Theorem file_takes_precedence (X : endpoint) (f : UploadFile)
    (text : option string) :
  run (handler W X (Some f) text) = run (handler W X (Some f) None) /\
  (forall content,
     process_uploaded_file W f = Returns content ->
     snd (run (handler W X (Some f) text)) =
       [Called_process_uploaded_file f; Called_generation X content] /\
     (forall a, generation W X content = Returns a ->
                fst (run (handler W X (Some f) text)) = Returns a)).
Proof.
  rewrite !handler_run. split; [reflexivity|].
  intros content Hc. rewrite Hc.
  destruct (generation W X content) as [a|e]; cbn; split;
    try reflexivity; intros a' Ha'; congruence.
Qed.

End GenerateEndpoints.

(** ** The response model *)

Section ResponseModel.

Context {artifact : Type}.
Variable W : Collaborators artifact.

(** What the response constructor returns is made of its arguments. *)
Lemma new_VideoSummaryResponse_returns id ti th s src d r :
  new_VideoSummaryResponse W id ti th s src d = Returns r ->
  video_id r = id /\ summary r = s /\ source r = src /\
  str_field W ti = Some (title r) /\
  str_field W th = Some (thumbnail r) /\
  optional_str_field W d = Some (duration r).
Proof.
  unfold new_VideoSummaryResponse.
  destruct (str_field W ti), (str_field W th), (optional_str_field W d);
    intros H; inversion H; cbn; repeat split.
Qed.

(** What it raises is a validation error, never an [HTTPException]. *)
Lemma new_VideoSummaryResponse_raises id ti th s src d e :
  new_VideoSummaryResponse W id ti th s src d = Raises e ->
  e = OtherException (str_ValidationError W ti th d).
Proof.
  unfold new_VideoSummaryResponse.
  destruct (str_field W ti), (str_field W th), (optional_str_field W d);
    intros H; inversion H; reflexivity.
Qed.


(** With strings for its three checked fields it returns. *)
Lemma new_VideoSummaryResponse_strings id ti th s src d :
  new_VideoSummaryResponse W id (PyStr ti) (PyStr th) s src (PyStr d) =
    Returns {| video_id := id; title := ti; thumbnail := th;
               summary := s; source := src; duration := Some d |}.
Proof. reflexivity. Qed.

(** An [Optional[str]] field is [None] for [None] only. *)
Lemma optional_str_field_none v :
  optional_str_field W v = Some None -> v = PyNone.
Proof.
  destruct v; cbn; try reflexivity; try discriminate;
    destruct (coerce_str W _); discriminate.
Qed.

End ResponseModel.

(** Splits on the outcome of the next collaborator, the response
    constructor apart. *)
Ltac collaborator_outcome :=
  match goal with
  | |- context [match ?o with Returns _ => _ | Raises _ => _ end] =>
      lazymatch o with
      | new_VideoSummaryResponse _ _ _ _ _ _ _ => fail
      | _ => destruct o as [?|[? ?|?]] eqn:?
      end
  | |- context [match ?o with Some _ => _ | None => _ end] =>
      destruct o eqn:?
  end; cbn [fst snd app].

(** Case analysis on the response constructor the goal waits for. *)
Ltac response :=
  match goal with
  | |- context [new_VideoSummaryResponse ?V ?a ?b ?c ?d ?e ?f] =>
      let H := fresh "Hnew" in
      destruct (new_VideoSummaryResponse V a b c d e f) eqn:H;
      [ apply new_VideoSummaryResponse_returns in H
      | apply new_VideoSummaryResponse_raises in H; subst ]
  end; cbn [fst snd app].

(** ** The video routes *)

Section VideoRoutes.

Context {artifact : Type}.
Variable W : Collaborators artifact.


(** C6: when the audio fallback is taken and the download, the
    transcription or the summarization raises [e], the request ends
    without a response, as an [HTTPException] of status 500 whose
    detail is "Audio processing failed: " followed by [str(e)]. *)
Theorem audio_fallback_failure_is_500 (request : VideoRequest) v id tv e :
  get_video_id W (url request) = Returns v -> truthy v = Some id ->
  get_transcript W id = Returns tv -> truthy tv = None ->
  audio_fallback_raises W (url request) e ->
  fst (run (summarize_youtube_video W request)) =
    Raises (HTTPException 500 ("Audio processing failed: " ++ str W e)) /\
  http_status (fst (run (summarize_youtube_video W request))) = 500 /\
  (forall r, fst (run (summarize_youtube_video W request)) <> Returns r).
Proof.
  intros Hv Hid Htv Ht Ha.
  assert (Hrun : fst (run (summarize_youtube_video W request)) =
                 Raises (HTTPException 500 ("Audio processing failed: " ++ str W e))).
  { exec. rewrite Hv; cbn [fst snd app]. rewrite Hid.
    destruct (extract_info W (url request)) as [[i|]|x]; cbn [fst snd app];
      rewrite Htv; cbn [fst snd app]; rewrite Ht;
      (destruct Ha as [e Hd | p e Hd Hta | p tt e Hd Hta Hg];
       rewrite Hd; cbn [fst snd app];
       try (rewrite Hta; cbn [fst snd app]);
       try (rewrite Hg; cbn [fst snd app]);
       reflexivity). }
  rewrite Hrun. cbn. repeat split. intros r Hr. discriminate Hr.
Qed.

(** C10: [get_video_info] has no defaults for a failed retrieval: when
    the info extraction raises [e], or returns [None] so that reading
    it raises, the one call made is that extraction and the outcome is
    an [HTTPException] of status 500 whose detail is
    "Error fetching video info: " followed by [str(e)]. *)
Theorem video_info_failure_is_500 (id : string) :
  (forall e,
     extract_info W ("https://www.youtube.com/watch?v=" ++ id) = Raises e ->
     run (get_video_info W id) =
       (Raises (HTTPException 500 ("Error fetching video info: " ++ str W e)),
        [Called_extract_info ("https://www.youtube.com/watch?v=" ++ id)]) /\
     (forall r, fst (run (get_video_info W id)) <> Returns r)) /\
  (extract_info W ("https://www.youtube.com/watch?v=" ++ id) = Returns None ->
   run (get_video_info W id) =
     (Raises (HTTPException 500
                ("Error fetching video info: " ++ str W none_has_no_get)),
      [Called_extract_info ("https://www.youtube.com/watch?v=" ++ id)]) /\
   (forall r, fst (run (get_video_info W id)) <> Returns r)).
Proof.
  split; [intros e He | intros He]; exec; rewrite He; cbn [fst snd app];
    (split; [reflexivity | intros r Hr; discriminate Hr]).
Qed.

(** What the code does for a metadata lookup that fails (it raises, or
    returns [None]): the failure is absorbed.  A response carries the
    title "YouTube Video", the thumbnail URL built from the video id and
    the duration "Unknown"; a response the request gets with any other
    metadata it also gets with the failing lookup, with the same video
    id, summary and source; and an error of the failing run is the error
    of the other run too. *)
Lemma metadata_lookup_failure_is_absorbed (request : VideoRequest)
    (f : string -> outcome (option Info)) :
  metadata_fails f (url request) ->
  (forall r,
     fst (run (summarize_youtube_video (with_extract_info W f) request)) = Returns r ->
     title r = "YouTube Video" /\
     thumbnail r = default_thumbnail (video_id r) /\
     duration r = Some "Unknown") /\
  (forall r,
     fst (run (summarize_youtube_video W request)) = Returns r ->
     exists r',
       fst (run (summarize_youtube_video (with_extract_info W f) request)) = Returns r' /\
       video_id r' = video_id r /\ summary r' = summary r /\ source r' = source r) /\
  (forall e,
     fst (run (summarize_youtube_video (with_extract_info W f) request)) = Raises e ->
     fst (run (summarize_youtube_video W request)) = Raises e).
Proof.
  unfold metadata_fails. intros Hf. exec.
  unfold str.
  cbn [with_extract_info get_video_id extract_info get_transcript
    summarize_transcript download_audio transcribe_audio generate_summary
    str_HTTPException coerce_str str_ValidationError].
  destruct (f (url request)) as [[i|]|x]; try contradiction;
    repeat collaborator_outcome;
    rewrite ?new_VideoSummaryResponse_strings;
    try response;
    (split; [| split]);
    try (intros z Hz; exact Hz);
    try (intros z Hz; discriminate Hz);
    try (intros z Hz; inversion Hz; subst; cbn; repeat split; reflexivity);
    try (intros z Hz; inversion Hz; subst; eexists;
         split; [reflexivity | cbn; intuition congruence]).
Qed.


End VideoRoutes.

(** ** The utility routes *)

(** C7: [health_check] returns the dict with status "healthy" and version
    "1.0.0" whatever happened before, and calls nothing. *)
Theorem health_check_is_constant (tr : trace) :
  health_check tr =
    (Returns [("status", "healthy"); ("version", "1.0.0")], tr).
Proof. reflexivity. Qed.

(** ** The properties at concrete requests *)

(** With Starlette's [str], the request with neither file nor text is
    answered with status 500 and this detail. *)
Example missing_input_flashcards :
  run (handler W_study Flashcards None None) =
    (Raises (HTTPException 500
       "Error generating flashcards: 400: Please provide either a file or text"),
     []).
Proof. reflexivity. Qed.

(** A corrupt upload on the flashcards endpoint. *)
Lemma collaborator_exception_becomes_500_witness :
  collaborator_raises W_corrupt_upload Flashcards (Some notes_txt) None
    (OtherException "corrupt PDF") /\
  fst (run (handler W_corrupt_upload Flashcards (Some notes_txt) None)) =
    Raises (HTTPException 500 "Error generating flashcards: corrupt PDF").
Proof.
  assert (H : collaborator_raises W_corrupt_upload Flashcards (Some notes_txt)
                None (OtherException "corrupt PDF"))
    by (apply extraction_raises; reflexivity).
  split; [exact H |].
  exact (proj1 (collaborator_exception_becomes_500 W_corrupt_upload Flashcards
                  (Some notes_txt) None (OtherException "corrupt PDF") H)).
Defined.

(** Pasted text on the MCQ endpoint. *)
Lemma text_only_goes_to_generation_witness :
  "Cells divide." <> "" /\
  snd (run (handler W_study MCQs None (Some "Cells divide."))) =
    [Called_generation MCQs "Cells divide."] /\
  fst (run (handler W_study MCQs None (Some "Cells divide."))) =
    Returns ["What do cells do?"; "They divide."].
Proof.
  assert (H : "Cells divide." <> "") by discriminate.
  destruct (text_only_goes_to_generation W_study MCQs "Cells divide." H)
    as (Htr & _ & Hret).
  split; [exact H | split; [exact Htr | apply Hret; reflexivity]].
Defined.

(** A file and a text field on the mind map endpoint. *)
Lemma file_takes_precedence_witness :
  run (handler W_study MindMap (Some notes_txt) (Some "ignored")) =
    (Returns ["What do cells do?"; "They divide."],
     [Called_process_uploaded_file notes_txt;
      Called_generation MindMap "Cells divide by mitosis."]).
Proof.
  destruct (file_takes_precedence W_study MindMap notes_txt (Some "ignored"))
    as (_ & H).
  destruct (H "Cells divide by mitosis." eq_refl) as (Htr & Hret).
  specialize (Hret _ eq_refl).
  destruct (run (handler W_study MindMap (Some notes_txt) (Some "ignored")))
    as [o tr].
  cbn [fst snd] in Htr, Hret. rewrite Htr, Hret. reflexivity.
Defined.


(** A video without a transcript whose download fails. *)
Lemma audio_fallback_failure_is_500_witness :
  audio_fallback_raises W_no_audio (url watch_request)
    (OtherException "ffmpeg not found") /\
  fst (run (summarize_youtube_video W_no_audio watch_request)) =
    Raises (HTTPException 500 "Audio processing failed: ffmpeg not found").
Proof.
  assert (H : audio_fallback_raises W_no_audio (url watch_request)
                (OtherException "ffmpeg not found"))
    by (apply download_raises; reflexivity).
  split; [exact H |].
  exact (proj1 (audio_fallback_failure_is_500 W_no_audio watch_request
                  (Some "abc123") "abc123" None
                  (OtherException "ffmpeg not found")
                  eq_refl eq_refl eq_refl eq_refl H)).
Defined.

(** A metadata lookup that raises. *)
Lemma video_info_failure_is_500_witness :
  run (get_video_info W_no_id "abc123") =
    (Raises (HTTPException 500 "Error fetching video info: not scripted"),
     [Called_extract_info "https://www.youtube.com/watch?v=abc123"]).
Proof.
  destruct (video_info_failure_is_500 W_no_id "abc123") as (H & _).
  exact (proj1 (H (OtherException "not scripted") eq_refl)).
Defined.


(** * Further properties of the handlers *)

(** ** The generate-X endpoints, on every request *)

Section GenerateEndpointsAll.

Context {artifact : Type}.
Variable W : Collaborators artifact.

(** A generate-X endpoint answers with status 200 or 500 and nothing
    else: whatever it is sent and whatever its collaborators do, it
    returns the artifact or raises an [HTTPException] of status 500, also
    when a collaborator raised an [HTTPException] with a status of its
    own. *)
Theorem generate_status_200_or_500 (X : endpoint) file text :
  ((exists a, fst (run (handler W X file text)) = Returns a) \/
   (exists detail,
      fst (run (handler W X file text)) = Raises (HTTPException 500 detail))) /\
  (http_status (fst (run (handler W X file text))) = 200 \/
   http_status (fst (run (handler W X file text))) = 500).
Proof.
  rewrite handler_run.
  destruct file as [f|];
    [ destruct (process_uploaded_file W f) as [c|e]
    | destruct (truthy text) as [c|] ];
    try destruct (generation W X c) as [a|e'];
    cbn; split; eauto.
Qed.

(** The extraction collaborator is called once when a file is sent,
    whatever the text, and never without a file; the generation
    collaborator is called at most once, and a request makes at most two
    calls. *)
Theorem extraction_called_iff_file (X : endpoint) file text :
  calls is_extraction (snd (run (handler W X file text))) =
    match file with Some _ => 1%nat | None => 0%nat end /\
  (calls is_generation (snd (run (handler W X file text))) <= 1)%nat /\
  (length (snd (run (handler W X file text))) <= 2)%nat.
Proof.
  rewrite handler_run.
  destruct file as [f|];
    [ destruct (process_uploaded_file W f) as [c|e]
    | destruct (truthy text) as [c|] ];
    try destruct (generation W X c) as [a|e'];
    cbn; repeat split; lia.
Qed.

(** A generate-X endpoint returns [a] exactly when the request carries
    content (extracted from the file, or else a non-empty text) and the
    generation collaborator returns [a] for that content. *)
Theorem generate_returns_iff (X : endpoint) file text (a : artifact) :
  fst (run (handler W X file text)) = Returns a <->
  exists content,
    request_content W file text content /\ generation W X content = Returns a.
Proof.
  rewrite handler_run. split.
  - destruct file as [f|].
    + destruct (process_uploaded_file W f) as [c|e] eqn:Hp; cbn;
        [| discriminate].
      destruct (generation W X c) as [a'|e] eqn:Hg; cbn; [| discriminate].
      intros H. inversion H; subst. exists c. split; [| assumption].
      constructor. assumption.
    + destruct (truthy text) as [c|] eqn:Ht; cbn; [| discriminate].
      destruct (generation W X c) as [a'|e] eqn:Hg; cbn; [| discriminate].
      intros H. inversion H; subst. exists c. split; [| assumption].
      constructor. assumption.
  - intros (c & Hc & Hg).
    destruct Hc as [f text c Hp | text c Ht];
      [rewrite Hp | rewrite Ht]; rewrite Hg; reflexivity.
Qed.

(** The test for empty input is on the text field only: when the
    extraction collaborator returns the empty string for a file, the
    generation collaborator is still called, on the empty string, and its
    outcome decides the response. *)
Theorem empty_extraction_reaches_generation (X : endpoint) (f : UploadFile) text :
  process_uploaded_file W f = Returns "" ->
  snd (run (handler W X (Some f) text)) =
    [Called_process_uploaded_file f; Called_generation X ""] /\
  (forall a, generation W X "" = Returns a ->
             fst (run (handler W X (Some f) text)) = Returns a) /\
  (forall e, generation W X "" = Raises e ->
             fst (run (handler W X (Some f) text)) =
               Raises (HTTPException 500 (error_prefix X ++ str W e))).
Proof.
  intros Hp. rewrite handler_run, Hp.
  destruct (generation W X "") as [a|e]; cbn; repeat split;
    intros z Hz; congruence.
Qed.

End GenerateEndpointsAll.

(** An upload without text on the sticky notes endpoint. *)
Lemma empty_extraction_reaches_generation_witness :
  run (handler W_empty_upload StickyNotes (Some notes_txt) None) =
    (Returns ["Nothing to revise."],
     [Called_process_uploaded_file notes_txt; Called_generation StickyNotes ""]).
Proof.
  destruct (empty_extraction_reaches_generation W_empty_upload StickyNotes
              notes_txt None eq_refl) as (Htr & Hret & _).
  specialize (Hret _ eq_refl).
  destruct (run (handler W_empty_upload StickyNotes (Some notes_txt) None))
    as [o tr].
  cbn [fst snd] in Htr, Hret. rewrite Htr, Hret. reflexivity.
Defined.

(** Pasted text on the learning path endpoint. *)
Lemma generate_returns_iff_witness :
  fst (run (handler W_study LearningPath None (Some "Cells divide."))) =
    Returns ["What do cells do?"; "They divide."].
Proof.
  apply (proj2 (generate_returns_iff W_study LearningPath None
                  (Some "Cells divide.") ["What do cells do?"; "They divide."])).
  exists "Cells divide.". split; [apply content_of_text |]; reflexivity.
Defined.

(** ** The video summarizer, on every request *)

Section VideoSummarizerAll.

Context {artifact : Type}.
Variable W : Collaborators artifact.

(** Case analysis on the outcome the goal is stuck on, exceptions by
    their class. *)
Ltac split_outcome :=
  match goal with
  | |- context [match ?o with Returns _ => _ | Raises _ => _ end] =>
      destruct o as [?|[? ?|?]] eqn:?
  | |- context [match ?o with Some _ => _ | None => _ end] =>
      destruct o eqn:?
  end; cbn [fst snd app].

Ltac split_all := exec; repeat split_outcome.

(** What leaves [summarize_youtube_video] is a response or an
    [HTTPException]: no other exception escapes it. *)
Theorem summarize_raises_only_http (request : VideoRequest) :
  (exists r, fst (run (summarize_youtube_video W request)) = Returns r) \/
  (exists status_code detail,
     fst (run (summarize_youtube_video W request)) =
       Raises (HTTPException status_code detail)).
Proof.
  split_all; eauto.
Qed.

(** No collaborator is called twice while a video is summarized, and a
    request makes at most six calls. *)
Theorem summarize_calls_each_at_most_once (request : VideoRequest)
    (c : collaborator) :
  (calls_to c (snd (run (summarize_youtube_video W request))) <= 1)%nat /\
  (length (snd (run (summarize_youtube_video W request))) <= 6)%nat.
Proof.
  split_all; (split; [destruct c; cbn; lia | cbn; lia]).
Qed.

(** A response always has source "transcript" or "audio" and, as video
    id, the non-empty identifier the resolver returned for the URL of the
    request; its duration is [None] only when the metadata lookup returned
    a dict that stores [None] under "duration_string". *)
Theorem summarize_response_invariants (request : VideoRequest) r :
  fst (run (summarize_youtube_video W request)) = Returns r ->
  (source r = "transcript" \/ source r = "audio") /\
  video_id r <> "" /\
  get_video_id W (url request) = Returns (Some (video_id r)) /\
  (duration r = None ->
   exists info,
     extract_info W (url request) = Returns (Some info) /\
     get info "duration_string" (PyStr "Unknown") = PyNone).
Proof.
  exec.
  destruct (get_video_id W (url request)) as [[[|c0 id]|]|[? ?|?]];
    cbn [fst snd app truthy]; try discriminate;
    repeat collaborator_outcome; try discriminate;
    rewrite ?new_VideoSummaryResponse_strings; try response;
    (intros H;
     first
       [ discriminate H
       | inversion H; subst; cbn;
         repeat match goal with
                | Hn : _ /\ _ |- _ => destruct Hn
                end;
         split; [auto | split; [congruence | split; [congruence |]]];
         intros Hd;
         first [ discriminate Hd
               | eexists; split; [reflexivity |];
                 apply (optional_str_field_none W); congruence ] ]).
Qed.

(** When the metadata lookup returns a dict, the response is built key by
    key from [info.get(key, default)]: title and thumbnail are what the
    [str] fields make of the values under "title" and "thumbnail" (neither
    is a stored [None]), duration is what the [Optional[str]] field makes
    of the value under "duration_string", and a stored [None] there gives
    a response without duration. *)
Theorem metadata_defaults_key_by_key (request : VideoRequest) info r :
  extract_info W (url request) = Returns (Some info) ->
  fst (run (summarize_youtube_video W request)) = Returns r ->
  str_field W (get info "title" (PyStr "YouTube Video")) = Some (title r) /\
  str_field W (get info "thumbnail" (PyStr (default_thumbnail (video_id r)))) =
    Some (thumbnail r) /\
  optional_str_field W (get info "duration_string" (PyStr "Unknown")) =
    Some (duration r) /\
  get info "title" (PyStr "YouTube Video") <> PyNone /\
  get info "thumbnail" (PyStr (default_thumbnail (video_id r))) <> PyNone /\
  (get info "duration_string" (PyStr "Unknown") = PyNone -> duration r = None).
Proof.
  intros Hi. exec.
  destruct (get_video_id W (url request)) as [v|[? ?|?]];
    cbn [fst snd app]; try discriminate.
  destruct (truthy v) as [id|]; cbn [fst snd app]; try discriminate.
  rewrite Hi. cbn [fst snd app].
  repeat collaborator_outcome; try discriminate; try response;
    intros H; inversion H; subst;
    repeat match goal with
           | Hn : _ /\ _ |- _ => destruct Hn
           end;
    subst;
    repeat match goal with
           | |- _ /\ _ => split
           end;
    try assumption;
    try (intros Hnone;
         match goal with
         | Hf : str_field _ _ = Some _ |- _ =>
             rewrite Hnone in Hf; discriminate Hf
         end);
    intros Hnone;
    match goal with
    | Hf : optional_str_field _ _ = Some _ |- _ =>
        rewrite Hnone in Hf; cbn in Hf; congruence
    end.
Qed.

(** An exception that is not an [HTTPException], raised while the id is
    resolved, the transcript fetched or the transcript summarized, ends
    the request with status 500 and the detail "Error processing video: "
    followed by [str(e)]. *)
Theorem pipeline_exception_is_500 (request : VideoRequest) message :
  pipeline_raises W (url request) (OtherException message) ->
  fst (run (summarize_youtube_video W request)) =
    Raises (HTTPException 500 ("Error processing video: " ++ message)).
Proof.
  intros H. exec. unfold str.
  inversion H as [e Hv | v id e Hv Hid Ht | v id tv t e Hv Hid Ht Htv Hs]; subst;
    rewrite Hv; cbn [fst snd app]; try reflexivity;
    rewrite Hid;
    destruct (extract_info W (url request)) as [[i|]|x]; cbn [fst snd app];
    rewrite Ht; cbn [fst snd app]; try reflexivity;
    rewrite Htv, Hs; reflexivity.
Qed.

(** An [HTTPException] raised while the id is resolved, the transcript
    fetched or the transcript summarized leaves the handler as it is,
    with its own status and detail (the generate-X endpoints turn it into
    a 500). *)
Theorem pipeline_http_exception_passes_through (request : VideoRequest)
    status_code detail :
  pipeline_raises W (url request) (HTTPException status_code detail) ->
  fst (run (summarize_youtube_video W request)) =
    Raises (HTTPException status_code detail) /\
  http_status (fst (run (summarize_youtube_video W request))) = status_code.
Proof.
  intros H.
  assert (Hrun : fst (run (summarize_youtube_video W request)) =
                 Raises (HTTPException status_code detail)).
  { exec.
    inversion H as [e Hv | v id e Hv Hid Ht | v id tv t e Hv Hid Ht Htv Hs]; subst;
      rewrite Hv; cbn [fst snd app]; try reflexivity;
      rewrite Hid;
      destruct (extract_info W (url request)) as [[i|]|x]; cbn [fst snd app];
      rewrite Ht; cbn [fst snd app]; try reflexivity;
      rewrite Htv, Hs; reflexivity. }
  rewrite Hrun. split; reflexivity.
Qed.

(** The audio fallback is for a missing transcript only: when resolving
    the id, fetching the transcript or summarizing the transcript raises,
    the audio is neither downloaded nor transcribed nor summarized. *)
Theorem no_audio_fallback_on_exception (request : VideoRequest) e :
  pipeline_raises W (url request) e ->
  calls_to AudioDownload (snd (run (summarize_youtube_video W request))) = 0%nat /\
  calls_to Transcription (snd (run (summarize_youtube_video W request))) = 0%nat /\
  calls_to AudioSummary (snd (run (summarize_youtube_video W request))) = 0%nat.
Proof.
  intros H. exec.
  inversion H as [e' Hv | v id e' Hv Hid Ht | v id tv t e' Hv Hid Ht Htv Hs]; subst;
    rewrite Hv; cbn [fst snd app];
    [ destruct e; cbn; repeat split | rewrite Hid .. ];
    (destruct (extract_info W (url request)) as [[i|]|x]; cbn [fst snd app];
     rewrite Ht; cbn [fst snd app];
     [ first [ rewrite Htv, Hs; cbn [fst snd app] | idtac ];
       destruct e; cbn; repeat split .. ]).
Qed.

(** With a transcript, the calls are exactly: resolve the id from the
    URL, fetch the metadata for the URL, fetch the transcript for the id,
    summarize the transcript; this is so whether the metadata and the
    summary succeed or not. *)
Theorem transcript_path_calls (request : VideoRequest) v id tv t :
  get_video_id W (url request) = Returns v -> truthy v = Some id ->
  get_transcript W id = Returns tv -> truthy tv = Some t ->
  snd (run (summarize_youtube_video W request)) =
    [Called_get_video_id (url request); Called_extract_info (url request);
     Called_get_transcript id; Called_summarize_transcript t].
Proof.
  intros Hv Hid Ht Htv. exec.
  rewrite Hv; cbn [fst snd app]. rewrite Hid.
  destruct (extract_info W (url request)) as [[i|]|x]; cbn [fst snd app];
    rewrite Ht; cbn [fst snd app]; rewrite Htv;
    destruct (summarize_transcript W t) as [s|[? ?|?]]; cbn [fst snd app];
    try reflexivity;
    destruct (new_VideoSummaryResponse W id _ _ s "transcript" _) as [?|[? ?|?]];
    reflexivity.
Qed.

(** Without a transcript, the transcript summarizer is not called, and
    the fourth call is the download of the audio, for the URL of the
    request (not for the id). *)
Theorem audio_path_calls (request : VideoRequest) v id tv :
  get_video_id W (url request) = Returns v -> truthy v = Some id ->
  get_transcript W id = Returns tv -> truthy tv = None ->
  firstn 4 (snd (run (summarize_youtube_video W request))) =
    [Called_get_video_id (url request); Called_extract_info (url request);
     Called_get_transcript id; Called_download_audio (url request)] /\
  calls_to TranscriptSummary (snd (run (summarize_youtube_video W request))) = 0%nat.
Proof.
  intros Hv Hid Ht Htv. exec.
  rewrite Hv; cbn [fst snd app]. rewrite Hid.
  destruct (extract_info W (url request)) as [[i|]|x]; cbn [fst snd app];
    rewrite Ht; cbn [fst snd app]; rewrite Htv;
    repeat split_outcome; split; reflexivity.
Qed.

End VideoSummarizerAll.

(** The video with a transcript: its response. *)
Lemma summarize_response_invariants_witness :
  fst (run (summarize_youtube_video W_transcript watch_request)) =
    Returns {| video_id := "abc123"; title := "Lecture 1";
               thumbnail := "https://img.youtube.com/vi/abc123/maxresdefault.jpg";
               summary := "Summary: hello world"; source := "transcript";
               duration := Some "12:34" |} /\
  get_video_id W_transcript (url watch_request) = Returns (Some "abc123").
Proof.
  split; [reflexivity |].
  exact (proj1 (proj2 (proj2
    (summarize_response_invariants W_transcript watch_request _ eq_refl)))).
Defined.

(** The same video: its metadata has a title and a duration and no
    thumbnail. *)
Lemma metadata_defaults_key_by_key_witness :
  exists r,
    fst (run (summarize_youtube_video W_transcript watch_request)) = Returns r /\
    Some "Lecture 1" = Some (title r) /\
    Some "https://img.youtube.com/vi/abc123/maxresdefault.jpg" =
      Some (thumbnail r) /\
    Some (Some "12:34") = Some (duration r).
Proof.
  eexists. split; [reflexivity |].
  destruct (metadata_defaults_key_by_key W_transcript watch_request
              lecture_info _ eq_refl eq_refl) as (Hti & Hth & Hd & _).
  split; [exact Hti | split; [exact Hth | exact Hd]].
Defined.

(** A transcript lookup that breaks. *)
Lemma pipeline_exception_is_500_witness :
  pipeline_raises W_transcript_error (url watch_request)
    (OtherException "transcripts disabled") /\
  fst (run (summarize_youtube_video W_transcript_error watch_request)) =
    Raises (HTTPException 500 "Error processing video: transcripts disabled").
Proof.
  assert (H : pipeline_raises W_transcript_error (url watch_request)
                (OtherException "transcripts disabled"))
    by (apply (transcript_raises _ _ (Some "abc123") "abc123"); reflexivity).
  split; [exact H |].
  exact (pipeline_exception_is_500 W_transcript_error watch_request _ H).
Defined.

(** A transcript lookup refused with status 429. *)
Lemma pipeline_http_exception_passes_through_witness :
  pipeline_raises W_transcript_refused (url watch_request)
    (HTTPException 429 "Too many requests") /\
  http_status
    (fst (run (summarize_youtube_video W_transcript_refused watch_request))) = 429.
Proof.
  assert (H : pipeline_raises W_transcript_refused (url watch_request)
                (HTTPException 429 "Too many requests"))
    by (apply (transcript_raises _ _ (Some "abc123") "abc123"); reflexivity).
  split; [exact H |].
  exact (proj2 (pipeline_http_exception_passes_through W_transcript_refused
                  watch_request 429 "Too many requests" H)).
Defined.

(** The broken transcript lookup again: no download follows. *)
Lemma no_audio_fallback_on_exception_witness :
  calls_to AudioDownload
    (snd (run (summarize_youtube_video W_transcript_error watch_request))) = 0%nat.
Proof.
  refine (proj1 (no_audio_fallback_on_exception W_transcript_error watch_request
                   (OtherException "transcripts disabled") _)).
  apply (transcript_raises _ _ (Some "abc123") "abc123"); reflexivity.
Defined.

(** The calls made for the video with a transcript. *)
Lemma transcript_path_calls_witness :
  snd (run (summarize_youtube_video W_transcript watch_request)) =
    [Called_get_video_id "https://www.youtube.com/watch?v=abc123";
     Called_extract_info "https://www.youtube.com/watch?v=abc123";
     Called_get_transcript "abc123";
     Called_summarize_transcript "hello world"].
Proof.
  exact (transcript_path_calls W_transcript watch_request (Some "abc123")
           "abc123" (Some "hello world") "hello world"
           eq_refl eq_refl eq_refl eq_refl).
Defined.

(** The first calls made for the video without a transcript. *)
Lemma audio_path_calls_witness :
  firstn 4 (snd (run (summarize_youtube_video W_audio watch_request))) =
    [Called_get_video_id "https://www.youtube.com/watch?v=abc123";
     Called_extract_info "https://www.youtube.com/watch?v=abc123";
     Called_get_transcript "abc123";
     Called_download_audio "https://www.youtube.com/watch?v=abc123"].
Proof.
  exact (proj1 (audio_path_calls W_audio watch_request (Some "abc123")
                  "abc123" None eq_refl eq_refl eq_refl eq_refl)).
Defined.

(** ** Video information and the landing page *)

Section VideoInfoAll.

Context {artifact : Type}.
Variable W : Collaborators artifact.

(** [get_video_info] does not look at the id: for any string it makes
    one call, the metadata lookup of the watch URL with that string
    appended, and answers with status 200 or 500; a returned dict carries
    the id as it was given. *)
Theorem video_info_one_lookup (id : string) :
  snd (run (get_video_info W id)) =
    [Called_extract_info ("https://www.youtube.com/watch?v=" ++ id)] /\
  (http_status (fst (run (get_video_info W id))) = 200 \/
   http_status (fst (run (get_video_info W id))) = 500) /\
  (forall r, fst (run (get_video_info W id)) = Returns r -> vi_video_id r = id).
Proof.
  exec.
  destruct (extract_info W ("https://www.youtube.com/watch?v=" ++ id))
    as [[i|]|e]; cbn; repeat split; auto;
    intros r H; inversion H; reflexivity.
Qed.

(** [get_video_info] returns a dict exactly when the metadata lookup
    returns one, and then each entry is [info.get(key, default)]: the
    value stored under the key, a stored [None] included, and the default
    of the key ("YouTube Video", the thumbnail URL built from the id,
    "Unknown", "Unknown Channel", 0) when the key is absent. *)
Theorem video_info_returns_iff (id : string) (r : VideoInfo) :
  fst (run (get_video_info W id)) = Returns r <->
  exists info,
    extract_info W ("https://www.youtube.com/watch?v=" ++ id) = Returns (Some info) /\
    r = {| vi_video_id := id;
           vi_title := get info "title" (PyStr "YouTube Video");
           vi_thumbnail := get info "thumbnail" (PyStr (default_thumbnail id));
           vi_duration := get info "duration_string" (PyStr "Unknown");
           vi_channel := get info "uploader" (PyStr "Unknown Channel");
           vi_view_count := get info "view_count" (PyInt 0) |}.
Proof.
  exec.
  destruct (extract_info W ("https://www.youtube.com/watch?v=" ++ id))
    as [[i|]|e]; cbn [fst snd app]; split.
  - intros H. inversion H. exists i. split; reflexivity.
  - intros (info & Hi & Hr). inversion Hi. subst. reflexivity.
  - discriminate.
  - intros (info & Hi & _). discriminate Hi.
  - discriminate.
  - intros (info & Hi & _). discriminate Hi.
Qed.

End VideoInfoAll.

(** Metadata that stores [None] as title and uploader and has no view
    count: the two [None]s are returned, the view count is the default. *)
Lemma video_info_returns_iff_witness :
  fst (run (get_video_info W_untitled "abc123")) =
    Returns {| vi_video_id := "abc123";
               vi_title := PyNone;
               vi_thumbnail := PyStr "https://i.ytimg.com/vi/abc123/hq720.jpg";
               vi_duration := PyStr "12:34";
               vi_channel := PyNone;
               vi_view_count := PyInt 0 |}.
Proof.
  apply (proj2 (video_info_returns_iff W_untitled "abc123" _)).
  exists untitled_info. split; reflexivity.
Defined.

(** The literal of [get_inline_html] has 330 characters in the source. *)
Example get_inline_html_length : String.length get_inline_html = 330%nat.
Proof. reflexivity. Qed.

(** [get_homepage] never raises and calls no collaborator: it serves the
    text of [templates/index.html] when that file exists and can be read,
    and the inline page when the file is absent or reading it raises. *)
Theorem homepage_always_served (fs : FileSystem) (tr : trace) :
  (exists page, get_homepage fs tr = (Returns page, tr)) /\
  (forall text,
     path_exists fs "templates/index.html" = true ->
     read_text fs "templates/index.html" = Returns text ->
     get_homepage fs tr = (Returns {| html_content := text |}, tr)) /\
  (forall e,
     path_exists fs "templates/index.html" = true ->
     read_text fs "templates/index.html" = Raises e ->
     get_homepage fs tr = (Returns {| html_content := get_inline_html |}, tr)) /\
  (path_exists fs "templates/index.html" = false ->
   get_homepage fs tr = (Returns {| html_content := get_inline_html |}, tr)).
Proof.
  unfold get_homepage, try_except, bind, lift, ret.
  destruct (path_exists fs "templates/index.html");
    destruct (read_text fs "templates/index.html") as [t|e];
    repeat split; eauto; intros; congruence.
Qed.

(** A template that cannot be read: the inline page is served. *)
Lemma homepage_always_served_witness :
  get_homepage fs_unreadable [] =
    (Returns {| html_content := get_inline_html |}, []).
Proof.
  destruct (homepage_always_served fs_unreadable []) as (_ & _ & H & _).
  exact (H (OtherException "Permission denied") eq_refl eq_refl).
Defined.
